(** * Spoolman: the server entry point (spoolman/main.py)

    A shallow embedding of [spoolman/main.py]: the logging set-up that runs
    when the module is loaded, the composition of the FastAPI application,
    [get_connection_url], the [startup] handler and the [uvicorn.run] call
    of the main guard.

    The module reads its configuration through [spoolman.env] and hands the
    connection URL to [spoolman.database.database.setup_db]; neither file is
    part of the sources at hand.  Their results are therefore parameters of
    the development: every call of one of them is the outcome (a value or an
    exception) the surrounding record gives for it. *)

From Stdlib Require Import ZArith Ascii.
From stdpp Require Import base option strings list gmap.

Local Open Scope Z_scope.
Local Open Scope string_scope.
Local Open Scope list_scope.

(** ** Exceptions and results *)

(** Python exceptions, by the kinds the start-up path distinguishes: a
    configuration that cannot be read, a failure of the file system, of a
    library or of the storage layer, and [SystemExit(code)], with which
    the server ends the process. *)
Inductive exn : Type :=
  | ConfigurationError (detail : string)
  | ExternalError (detail : string)
  | SystemExit (code : Z).

(** The outcome of a call: the value returned or the exception raised. *)
Inductive result (A : Type) : Type :=
  | Ok (a : A)
  | Raise (e : exn).

Arguments Ok {A} a.
Arguments Raise {A} e.

(** ** Paths (pathlib, POSIX flavour) *)

(** A path is its root (the empty string for a relative path, ["/"] for
    an absolute one) and its components. *)
Record Path : Type := MkPath {
  path_root : string;
  path_parts : list string;
}.

(** [p.joinpath(name)] for a [name] that is one plain component, as both
    calls of main.py are (["spoolman.log"], ["spoolman.db"]). *)
Definition joinpath (p : Path) (name : string) : Path :=
  {| path_root := path_root p; path_parts := path_parts p ++ [name] |}.

(** [str(p)] *)
Definition path_str (p : Path) : string :=
  match path_parts p with
  | [] => if decide (path_root p = EmptyString) then "." else path_root p
  | _ => path_root p +:+ String.concat "/" (path_parts p)
  end.

(** [p.parent] and [p.name] *)
Definition path_parent (p : Path) : Path :=
  {| path_root := path_root p; path_parts := removelast (path_parts p) |}.

Definition path_name (p : Path) : string := List.last (path_parts p) EmptyString.

(** ** Connection URLs (sqlalchemy.URL) *)

(** The fields of [sqlalchemy.URL].  On arguments of these types the
    checks of [URL.create] pass and it stores the arguments in the fields;
    an argument that is [None] leaves the field [None]. *)
Record URL : Type := MkURL {
  url_drivername : string;
  url_username : option string;
  url_password : option string;
  url_host : option string;
  url_port : option Z;
  url_database : option string;
  url_query : gmap string string;
}.

(** [URL.create(drivername=.., host=.., port=.., database=.., query=..,
    username=.., password=..)] *)
Definition URL_create (drivername : string) (host : option string)
    (port : option Z) (database : option string)
    (query : gmap string string) (username password : option string) : URL :=
  {| url_drivername := drivername;
     url_username := username;
     url_password := password;
     url_host := host;
     url_port := port;
     url_database := database;
     url_query := query |}.

(** [query or {}]: [None] and the empty dict are both falsy, and both give
    the fresh empty dict. *)
Definition query_or_empty (query : option (gmap string string))
    : gmap string string :=
  match query with
  | Some q => if decide (q = ∅) then ∅ else q
  | None => ∅
  end.

(** ** Logging (the standard logging module) *)

(** Levels are the integers of the logging module. *)
Definition NOTSET : Z := 0.
Definition INFO : Z := 20.
Definition WARNING : Z := 30.

Record Formatter : Type := MkFormatter {
  fmt_format : string;
  fmt_datefmt : option string;
}.

(** What a handler writes to: [FileHandler(filename, mode)] or
    [StreamHandler()], which writes to the console. *)
Inductive Sink : Type :=
  | FileSink (filename : Path) (mode : string)
  | ConsoleSink.

(** A handler object.  [hdlr_id] is the identity of the object: handlers
    compare by identity, and every constructor call makes a new one. *)
Record Handler : Type := MkHandler {
  hdlr_id : nat;
  hdlr_sink : Sink;
  hdlr_level : Z;
  hdlr_formatter : option Formatter;
}.

Definition is_file_sink (h : Handler) : bool :=
  match hdlr_sink h with FileSink _ _ => true | ConsoleSink => false end.

Definition is_console_sink (h : Handler) : bool :=
  match hdlr_sink h with FileSink _ _ => false | ConsoleSink => true end.

(** ** The application object (FastAPI / Starlette) *)

Inductive SubApp : Type :=
  | V1App
  | StaticFiles (directory : string) (html : bool).

Record Mount : Type := MkMount {
  mount_path : string;
  mount_app : SubApp;
  mount_name : option string;
}.

Inductive Middleware : Type :=
  | CORSMiddleware (allow_origins : list string) (allow_credentials : bool)
      (allow_methods allow_headers : list string).

(** A route of the application: one of the documentation pages FastAPI
    serves, by its path, or a mounted sub-application. *)
Inductive Route : Type :=
  | DocRoute (path : string)
  | MountRoute (m : Mount).

Record App : Type := MkApp {
  app_debug : bool;
  app_routes : list Route;
  app_user_middleware : list Middleware;
}.

(** The routes a new FastAPI application has: the OpenAPI schema and the
    documentation pages. *)
Definition documentation_routes : list Route :=
  [DocRoute "/openapi.json"; DocRoute "/docs";
   DocRoute "/docs/oauth2-redirect"; DocRoute "/redoc"].

(** [FastAPI(debug=d)] *)
Definition FastAPI (d : bool) : App :=
  {| app_debug := d;
     app_routes := documentation_routes;
     app_user_middleware := [] |}.

(** [path.rstrip("/")] *)
Fixpoint rstrip_slash (path : string) : string :=
  match path with
  | EmptyString => EmptyString
  | String c rest =>
      match rstrip_slash rest with
      | EmptyString =>
          if Ascii.eqb c "/"%char then EmptyString else String c EmptyString
      | String c' rest' => String c (String c' rest')
      end
  end.

(** [app.mount(path, sub, name)] appends a route; the mount keeps the
    path without its trailing slashes. *)
Definition mount (a : App) (path : string) (sub : SubApp)
    (name : option string) : App :=
  {| app_debug := app_debug a;
     app_routes :=
       app_routes a ++ [MountRoute (MkMount (rstrip_slash path) sub name)];
     app_user_middleware := app_user_middleware a |}.

(** [app.add_middleware(..)] puts the middleware in front of the others. *)
Definition add_middleware (a : App) (m : Middleware) : App :=
  {| app_debug := app_debug a;
     app_routes := app_routes a;
     app_user_middleware := m :: app_user_middleware a |}.

(** ** The stages of start-up *)

Inductive Stage : Type :=
  | LoggingSetup
  | DescriptorConstruction
  | StorageInitialization
  | Serving.


(** ** What the module imports *)

(** [spoolman.env], as far as main.py uses it: the enumeration
    [DatabaseType] with its member [SQLITE] and its method
    [to_drivername], and the functions that read the configuration, each
    by the outcome of calling it.  The configuration does not change while
    the module starts, so two calls of one function have one outcome. *)
Class EnvModule : Type := {
  DatabaseType : Type;
  SQLITE : DatabaseType;
  to_drivername : DatabaseType → string;
  get_database_type : result (option DatabaseType);
  get_host : result (option string);
  get_port : result (option Z);
  get_database : result (option string);
  get_query : result (option (gmap string string));
  get_username : result (option string);
  get_password : result (option string);
  get_logging_level : result Z;
  is_debug_mode : result bool;
}.

(** What lies outside the module: [Path(user_data_dir("spoolman"))], the
    module's [__name__], creating the data directory, opening the log file,
    the directory check of [StaticFiles], and [setup_db]. *)
Class Platform : Type := {
  data_dir : Path;
  module_name : string;
  mkdir_data_dir : result unit;
  open_log_file : Path → result unit;
  check_static_dir : string → result unit;
  setup_db : URL → result unit;
}.

(** ** The module *)

Section Main.

Context {E : EnvModule} {P : Platform}.

(** An argument of a logging call, kept unformatted as [LogRecord] does. *)
Inductive LogArg : Type :=
  | ArgStr (s : string)
  | ArgOptStr (s : option string)
  | ArgOptInt (n : option Z)
  | ArgDatabaseType (t : DatabaseType).

Record LogRecord : Type := MkLogRecord {
  rec_name : string;
  rec_levelno : Z;
  rec_msg : string;
  rec_args : list LogArg;
}.

(** The state the module works on: the handlers of the root logger, the
    allocator of object identities, the level of the logger ["spoolman"],
    the logging calls made on the module's own logger, and the calls of
    [setup_db].  [records] holds one entry per call of [logger.info] or
    [logger.warning], with the level, the message and the arguments of
    the call; whether the logging module turns a call into a record (the
    level of the call against the effective level of the logger) is not
    modelled, and neither is what other loggers are handed.  [stages] is a
    ghost trace: the stages of start-up entered so far. *)
Record World : Type := MkWorld {
  root_handlers : list Handler;
  next_object : nat;
  spoolman_level : Z;
  records : list LogRecord;
  db_calls : list URL;
  stages : list Stage;
}.

Definition initial_world : World :=
  {| root_handlers := []; next_object := 0%nat; spoolman_level := NOTSET;
     records := []; db_calls := []; stages := [] |}.

Definition set_root_handlers (hs : list Handler) (w : World) : World :=
  {| root_handlers := hs; next_object := next_object w;
     spoolman_level := spoolman_level w; records := records w;
     db_calls := db_calls w; stages := stages w |}.

Definition set_next_object (n : nat) (w : World) : World :=
  {| root_handlers := root_handlers w; next_object := n;
     spoolman_level := spoolman_level w; records := records w;
     db_calls := db_calls w; stages := stages w |}.

Definition set_spoolman_level (l : Z) (w : World) : World :=
  {| root_handlers := root_handlers w; next_object := next_object w;
     spoolman_level := l; records := records w;
     db_calls := db_calls w; stages := stages w |}.

Definition set_records (rs : list LogRecord) (w : World) : World :=
  {| root_handlers := root_handlers w; next_object := next_object w;
     spoolman_level := spoolman_level w; records := rs;
     db_calls := db_calls w; stages := stages w |}.

Definition set_db_calls (us : list URL) (w : World) : World :=
  {| root_handlers := root_handlers w; next_object := next_object w;
     spoolman_level := spoolman_level w; records := records w;
     db_calls := us; stages := stages w |}.

Definition set_stages (ss : list Stage) (w : World) : World :=
  {| root_handlers := root_handlers w; next_object := next_object w;
     spoolman_level := spoolman_level w; records := records w;
     db_calls := db_calls w; stages := ss |}.

(** *** The monad of the module: state and exceptions *)

Definition M (A : Type) : Type := World → result A * World.

#[global] Instance M_ret : MRet M := λ A a w, (Ok a, w).

#[global] Instance M_bind : MBind M := λ A B k m w,
  match m w with
  | (Ok a, w') => k a w'
  | (Raise e, w') => (Raise e, w')
  end.

(** A call of a collaborator: its outcome, the state untouched. *)
Definition call {A : Type} (r : result A) : M A := λ w, (r, w).

Definition modify (f : World → World) : M unit := λ w, (Ok tt, f w).

Definition gets {A : Type} (f : World → A) : M A := λ w, (Ok (f w), w).

(** Ghost: a stage is entered. *)
Definition enter (s : Stage) : M unit :=
  modify (λ w, set_stages (stages w ++ [s]) w).

(** *** The logging module *)

(** A constructor call of a handler class: a new object, level NOTSET, no
    formatter. *)
Definition new_handler (sink : Sink) : M Handler := λ w,
  (Ok {| hdlr_id := next_object w; hdlr_sink := sink;
         hdlr_level := NOTSET; hdlr_formatter := None |},
   set_next_object (S (next_object w)) w).

Definition setLevel (h : Handler) (l : Z) : Handler :=
  {| hdlr_id := hdlr_id h; hdlr_sink := hdlr_sink h;
     hdlr_level := l; hdlr_formatter := hdlr_formatter h |}.

Definition setFormatter (h : Handler) (f : Formatter) : Handler :=
  {| hdlr_id := hdlr_id h; hdlr_sink := hdlr_sink h;
     hdlr_level := hdlr_level h; hdlr_formatter := Some f |}.

(** [root.addHandler(h)]: appended unless the very object is in the list. *)
Definition addHandler (h : Handler) : M unit :=
  modify (λ w,
    if bool_decide (hdlr_id h ∈ hdlr_id <$> root_handlers w) then w
    else set_root_handlers (root_handlers w ++ [h]) w).

(** [logging.basicConfig(filename=.., filemode=.., format=.., datefmt=..)]:
    does nothing when the root logger has a handler already; otherwise it
    opens the file and gives the root logger a [FileHandler] on it. *)
Definition basicConfig (filename : Path) (filemode format datefmt : string)
    : M unit :=
  hs ← gets root_handlers;
  match hs with
  | [] =>
      call (open_log_file filename);;
      h ← new_handler (FileSink filename filemode);
      addHandler (setFormatter h (MkFormatter format (Some datefmt)))
  | _ :: _ => mret tt
  end.

(** [logger.log(level, msg, *args)] on the module's logger. *)
Definition log (level : Z) (msg : string) (args : list LogArg) : M unit :=
  modify (λ w,
    set_records (records w ++ [MkLogRecord module_name level msg args]) w).

(** *** main.py, lines 17-39: the data directory and the loggers *)

Definition setup_logging : M unit :=
  call mkdir_data_dir;;
  basicConfig (joinpath data_dir "spoolman.log") "w"
    "%(asctime)s:%(levelname)s:%(message)s" "%Y-%m-%d %I:%M:%S%p";;
  level ← call get_logging_level;
  modify (set_spoolman_level level);;
  console ← new_handler ConsoleSink;
  level ← call get_logging_level;
  addHandler
    (setFormatter (setLevel console level)
       (MkFormatter "%(name)-12s: %(levelname)-8s %(message)s" None)).

(** *** main.py, lines 44-59: the application *)

Definition make_app : M App :=
  debug ← call is_debug_mode;
  let app := FastAPI debug in
  let app := mount app "/api/v1" V1App None in
  call (check_static_dir "client/dist");;
  let app := mount app "/" (StaticFiles "client/dist" true) (Some "client") in
  debug ← call is_debug_mode;
  if (debug : bool) then
    log WARNING "Running in debug mode, allowing all origins." [];;
    mret (add_middleware app (CORSMiddleware ["*"] true ["*"] ["*"]))
  else mret app.

(** *** main.py, lines 62-87 *)

(** The two messages of [get_connection_url]; [dquote] is the double quote
    they put around each placeholder. *)
Definition dquote : string := String (Ascii.ascii_of_nat 34) EmptyString.

Definition default_database_msg : string :=
  "No database type specified, using a default SQLite database located at "
  +:+ dquote +:+ "%s" +:+ dquote.

Definition connecting_msg : string :=
  "Connecting to database of type " +:+ dquote +:+ "%s" +:+ dquote
  +:+ " at " +:+ dquote +:+ "%s:%s" +:+ dquote.

Definition get_connection_url : M URL :=
  db_type ← call get_database_type;
  host ← call get_host;
  port ← call get_port;
  database ← call get_database;
  query ← call get_query;
  username ← call get_username;
  password ← call get_password;
  '(db_type, database) ←
    match db_type with
    | None =>
        let db_type := SQLITE in
        let database := path_str (joinpath data_dir "spoolman.db") in
        log INFO default_database_msg [ArgStr database];;
        mret (db_type, Some database)
    | Some db_type =>
        log INFO connecting_msg
          [ArgDatabaseType db_type; ArgOptStr host; ArgOptInt port];;
        mret (db_type, database)
    end;
  mret (URL_create (to_drivername db_type) host port database
          (query_or_empty query) username password).

(** *** main.py, lines 90-97 *)

(** [await setup_db(url)]: the call is recorded, its outcome is the
    collaborator's. *)
Definition await_setup_db (url : URL) : M unit :=
  modify (λ w, set_db_calls (db_calls w ++ [url]) w);;
  call (setup_db url).

(** [await setup_db(get_connection_url())]: the argument is evaluated
    first.  The two [enter] steps are ghost. *)
Definition startup : M unit :=
  enter DescriptorConstruction;;
  url ← get_connection_url;
  enter StorageInitialization;;
  await_setup_db url.

(** The exit status of a server whose application did not start. *)
Definition STARTUP_FAILURE : Z := 3.

(** [m] run under a handler that catches every exception: the outcome of
    [m] as a value. *)
Definition attempt {A : Type} (m : M A) : M (result A) := λ w,
  let '(r, w') := m w in (Ok r, w').

(** [uvicorn.run(app, ..)]: the server runs the application's start-up
    handler and serves only when it has returned.  When the handler
    raises, the server catches the exception, reports it on its own
    logger and ends the process with [SystemExit(3)] without serving. *)
Definition uvicorn_run (app : App) : M unit :=
  started ← attempt startup;
  match started with
  | Ok _ => enter Serving
  | Raise _ => call (Raise (SystemExit STARTUP_FAILURE))
  end.


End Main.

(** ** Connection settings *)

(** The seven values [get_connection_url] reads, as the functions of
    [spoolman.env] return them. *)
Record ConnectionSettings (T : Type) : Type := MkSettings {
  cs_database_type : option T;
  cs_host : option string;
  cs_port : option Z;
  cs_database : option string;
  cs_query : option (gmap string string);
  cs_username : option string;
  cs_password : option string;
}.

Arguments MkSettings {T} _ _ _ _ _ _ _.
Arguments cs_database_type {T} _.
Arguments cs_host {T} _.
Arguments cs_port {T} _.
Arguments cs_database {T} _.
Arguments cs_query {T} _.
Arguments cs_username {T} _.
Arguments cs_password {T} _.

(** The environment holds the settings [s]: every reading function returns,
    and returns the field of [s]. *)
Definition env_reads {E : EnvModule} (s : ConnectionSettings DatabaseType)
    : Prop :=
  get_database_type = Ok (cs_database_type s) ∧
  get_host = Ok (cs_host s) ∧
  get_port = Ok (cs_port s) ∧
  get_database = Ok (cs_database s) ∧
  get_query = Ok (cs_query s) ∧
  get_username = Ok (cs_username s) ∧
  get_password = Ok (cs_password s).

(** Nothing configured. *)
Definition no_settings {T : Type} : ConnectionSettings T :=
  MkSettings None None None None None None None.

(** The default database file and the URL of the default database. *)
Definition default_database {P : Platform} : Path :=
  joinpath data_dir "spoolman.db".

Definition default_url {E : EnvModule} {P : Platform} : URL :=
  {| url_drivername := to_drivername SQLITE;
     url_username := None;
     url_password := None;
     url_host := None;
     url_port := None;
     url_database := Some (path_str default_database);
     url_query := ∅ |}.

(** The record [get_connection_url] logs when no database type is set, and
    the one it logs for the type [t]. *)
Definition default_record {E : EnvModule} {P : Platform} : LogRecord :=
  MkLogRecord module_name INFO default_database_msg
    [ArgStr (path_str default_database)].

Definition connecting_record {E : EnvModule} {P : Platform}
    (t : DatabaseType) (host : option string) (port : option Z) : LogRecord :=
  MkLogRecord module_name INFO connecting_msg
    [ArgDatabaseType t; ArgOptStr host; ArgOptInt port].

(** [keeps m]: [m] enters no stage and does not call [setup_db]. *)
Definition keeps {E : EnvModule} {A : Type} (m : M A) : Prop :=
  ∀ w, stages (m w).2 = stages w ∧ db_calls (m w).2 = db_calls w.

(** The log file, and the two handlers the module makes: the file handler
    of [basicConfig] and the console handler, as the objects [n]. *)
Definition log_path {P : Platform} : Path := joinpath data_dir "spoolman.log".

Definition file_handler {P : Platform} (n : nat) : Handler :=
  {| hdlr_id := n;
     hdlr_sink := FileSink log_path "w";
     hdlr_level := NOTSET;
     hdlr_formatter :=
       Some (MkFormatter "%(asctime)s:%(levelname)s:%(message)s"
               (Some "%Y-%m-%d %I:%M:%S%p")) |}.

Definition console_handler (n : nat) (level : Z) : Handler :=
  {| hdlr_id := n;
     hdlr_sink := ConsoleSink;
     hdlr_level := level;
     hdlr_formatter :=
       Some (MkFormatter "%(name)-12s: %(levelname)-8s %(message)s" None) |}.

(** Every handler of the root logger is an object made earlier. *)
Definition fresh_ids {E : EnvModule} (w : World) : Prop :=
  Forall (λ h, (hdlr_id h < next_object w)%nat) (root_handlers w).

(** The application before the debug flag is looked at a second time: the
    documentation routes, then the API under /api/v1 and the client under
    the root, whose mount path is the empty string. *)
Definition base_app (debug : bool) : App :=
  {| app_debug := debug;
     app_routes :=
       documentation_routes
       ++ [MountRoute (MkMount "/api/v1" V1App None);
           MountRoute
             (MkMount EmptyString (StaticFiles "client/dist" true)
                (Some "client"))];
     app_user_middleware := [] |}.

(** The warning of debug mode. *)
Definition debug_record {E : EnvModule} {P : Platform} : LogRecord :=
  MkLogRecord module_name WARNING
    "Running in debug mode, allowing all origins." [].

(** A URL that names no network address and no credentials. *)
Definition network_fields_absent (u : URL) : Prop :=
  url_host u = None ∧ url_port u = None ∧
  url_username u = None ∧ url_password u = None.

(** Modelled from the spec: [env.get_database_type], which lives in
    spoolman/env.py and is not among the sources.  By the spec, the reader
    returns the absent marker for a setting that is not supplied and never
    throws for it, returns the variant a recognized value selects, and
    reports a configuration error for a value that is not a recognized
    variant.  [recognize] is the table of recognized values. *)
Definition read_database_type {T : Type} (recognize : string → option T)
    (raw : option string) : result (option T) :=
  match raw with
  | None => Ok None
  | Some v =>
      match recognize v with
      | Some t => Ok (Some t)
      | None => Raise (ConfigurationError v)
      end
  end.

(** ** Sample deployments

    Concrete instances on which the theorems below are exercised. *)

Inductive SampleType : Type := SampleSqlite | SamplePostgres.

Definition sample_drivername (t : SampleType) : string :=
  match t with
  | SampleSqlite => "sqlite+aiosqlite"
  | SamplePostgres => "postgresql+asyncpg"
  end.

Definition sample_recognize (v : string) : option SampleType :=
  if decide (v = "sqlite") then Some SampleSqlite
  else if decide (v = "postgres") then Some SamplePostgres
  else None.

(** The environment in which the database type reads as [t] and the other
    settings as [s] gives them; the logging level is INFO. *)
Definition sample_env (t : result (option SampleType))
    (s : ConnectionSettings SampleType) (debug : bool) : EnvModule :=
  {| DatabaseType := SampleType;
     SQLITE := SampleSqlite;
     to_drivername := sample_drivername;
     get_database_type := t;
     get_host := Ok (cs_host s);
     get_port := Ok (cs_port s);
     get_database := Ok (cs_database s);
     get_query := Ok (cs_query s);
     get_username := Ok (cs_username s);
     get_password := Ok (cs_password s);
     get_logging_level := Ok INFO;
     is_debug_mode := Ok debug |}.

Definition sample_env_of (s : ConnectionSettings SampleType) (debug : bool)
    : EnvModule :=
  sample_env (Ok (cs_database_type s)) s debug.

(** A platform on which every collaborator succeeds. *)
Definition sample_platform : Platform :=
  {| data_dir := MkPath "/" ["home"; "spool"; ".local"; "share"; "spoolman"];
     module_name := "__main__";
     mkdir_data_dir := Ok tt;
     open_log_file := λ _, Ok tt;
     check_static_dir := λ _, Ok tt;
     setup_db := λ _, Ok tt |}.

(** A platform on which the storage layer cannot be reached. *)
Definition sample_platform_no_storage : Platform :=
  {| data_dir := MkPath "/" ["home"; "spool"; ".local"; "share"; "spoolman"];
     module_name := "__main__";
     mkdir_data_dir := Ok tt;
     open_log_file := λ _, Ok tt;
     check_static_dir := λ _, Ok tt;
     setup_db := λ _, Raise (ExternalError "connection refused") |}.

(** No database type, but a host, a port, a database name, two query
    parameters and credentials. *)
Definition sample_untyped : ConnectionSettings SampleType :=
  MkSettings None (Some "db.example.org") (Some 5432) (Some "spools")
    (Some {[ "sslmode" := "require"; "timeout" := "5" ]})
    (Some "spool") (Some "secret").

(** The same with the database type set. *)
Definition sample_postgres : ConnectionSettings SampleType :=
  MkSettings (Some SamplePostgres) (Some "db.example.org") (Some 5432)
    (Some "spools") (Some {[ "sslmode" := "require"; "timeout" := "5" ]})
    (Some "spool") (Some "secret").

(** The environments of the samples: no database type but the other
    settings, a typed database, nothing at all (with and without debug
    mode), and a database type that is not recognized. *)
Definition untyped_env : EnvModule := sample_env_of sample_untyped false.

Definition postgres_env : EnvModule := sample_env_of sample_postgres false.

Definition empty_env : EnvModule := sample_env_of no_settings false.

Definition debug_env : EnvModule := sample_env_of no_settings true.

Definition oracle_env : EnvModule :=
  sample_env (read_database_type sample_recognize (Some "oracle"))
    no_settings false.

(** ** Reading failures and repeated set-up *)

(** The exception of an outcome, if it is one. *)
Definition raised {A : Type} (r : result A) : option exn :=
  match r with Ok _ => None | Raise e => Some e end.

(** The exception of the first reading function that raises, in the order
    in which [get_connection_url] calls them (main.py, lines 64-70). *)
Definition first_reader_exception {E : EnvModule} : option exn :=
  head (omap id
    [raised get_database_type; raised get_host; raised get_port;
     raised get_database; raised get_query; raised get_username;
     raised get_password]).

(** The logging set-up of the module, run [n] times in a row. *)
Fixpoint setup_logging_times {E : EnvModule} {P : Platform} (n : nat)
    : M unit :=
  match n with
  | O => mret tt
  | S n' => setup_logging;; setup_logging_times n'
  end.

(** More samples: an environment whose port cannot be read, one whose
    logging level cannot be read, and a platform by the outcomes of its
    four collaborators. *)
Definition bad_port_env : EnvModule :=
  {| DatabaseType := SampleType;
     SQLITE := SampleSqlite;
     to_drivername := sample_drivername;
     get_database_type := Ok (Some SamplePostgres);
     get_host := Ok (Some "db.example.org");
     get_port := Raise (ConfigurationError "port");
     get_database := Ok (Some "spools");
     get_query := Ok None;
     get_username := Raise (ConfigurationError "username");
     get_password := Ok None;
     get_logging_level := Ok INFO;
     is_debug_mode := Ok true |}.

Definition bad_level_env : EnvModule :=
  {| DatabaseType := SampleType;
     SQLITE := SampleSqlite;
     to_drivername := sample_drivername;
     get_database_type := Ok None;
     get_host := Ok None;
     get_port := Ok None;
     get_database := Ok None;
     get_query := Ok None;
     get_username := Ok None;
     get_password := Ok None;
     get_logging_level := Raise (ConfigurationError "level");
     is_debug_mode := Ok false |}.

Definition sample_platform_with (mkdir open_log static storage : result unit)
    : Platform :=
  {| data_dir := MkPath "/" ["home"; "spool"; ".local"; "share"; "spoolman"];
     module_name := "__main__";
     mkdir_data_dir := mkdir;
     open_log_file := λ _, open_log;
     check_static_dir := λ _, static;
     setup_db := λ _, storage |}.

(** A state in which the root logger has a handler already. *)
Definition configured_world {E : EnvModule} : World :=
  set_root_handlers [console_handler 0 WARNING]
    (set_next_object 1 initial_world).

(** ** Properties *)

Section Properties.

Context {E : EnvModule} {P : Platform}.

Implicit Types (w : World) (s : ConnectionSettings DatabaseType).

(** *** Running the monad *)

Lemma bind_run {A B : Type} (m : M A) (k : A → M B) w :
  (m ≫= k) w =
  match m w with
  | (Ok a, w') => k a w'
  | (Raise e, w') => (Raise e, w')
  end.
Proof. reflexivity. Qed.

Lemma bind_call_ok {A B : Type} (r : result A) (a : A) (k : A → M B) w :
  r = Ok a → (call r ≫= k) w = k a w.
Proof. intros ->. reflexivity. Qed.

Lemma bind_call_raise {A B : Type} (r : result A) (e : exn) (k : A → M B) w :
  r = Raise e → (call r ≫= k) w = (Raise e, w).
Proof. intros ->. reflexivity. Qed.

Lemma query_or_empty_Some (q : gmap string string) :
  query_or_empty (Some q) = q.
Proof. unfold query_or_empty. case_decide; congruence. Qed.

Lemma query_or_empty_lookup (q : gmap string string) (k v : string) :
  q !! k = Some v → query_or_empty (Some q) !! k = Some v.
Proof. by rewrite query_or_empty_Some. Qed.

(** *** [get_connection_url] on settings that read *)

Ltac read_settings H :=
  destruct H as (Ht & Hh & Hp & Hd & Hq & Hu & Hpw);
  unfold get_connection_url;
  rewrite (bind_call_ok _ _ _ _ Ht), (bind_call_ok _ _ _ _ Hh),
    (bind_call_ok _ _ _ _ Hp), (bind_call_ok _ _ _ _ Hd),
    (bind_call_ok _ _ _ _ Hq), (bind_call_ok _ _ _ _ Hu),
    (bind_call_ok _ _ _ _ Hpw).

Lemma get_connection_url_default s w :
  env_reads s → cs_database_type s = None →
  get_connection_url w =
  (Ok (URL_create (to_drivername SQLITE) (cs_host s) (cs_port s)
         (Some (path_str default_database)) (query_or_empty (cs_query s))
         (cs_username s) (cs_password s)),
   set_records (records w ++ [default_record]) w).
Proof.
  intros H Hnone. read_settings H. rewrite Hnone. reflexivity.
Qed.

Lemma get_connection_url_typed s t w :
  env_reads s → cs_database_type s = Some t →
  get_connection_url w =
  (Ok (URL_create (to_drivername t) (cs_host s) (cs_port s)
         (cs_database s) (query_or_empty (cs_query s))
         (cs_username s) (cs_password s)),
   set_records (records w ++ [connecting_record t (cs_host s) (cs_port s)]) w).
Proof.
  intros H Hsome. read_settings H. rewrite Hsome. reflexivity.
Qed.

(** An exception of [env.get_database_type] leaves [get_connection_url]
    at its first line: nothing is logged, nothing is built. *)
Lemma get_connection_url_raise_type e w :
  get_database_type = Raise e → get_connection_url w = (Raise e, w).
Proof.
  intros H. unfold get_connection_url. by rewrite (bind_call_raise _ _ _ _ H).
Qed.

(** *** What a step leaves alone *)

Lemma keeps_ret {A : Type} (a : A) : keeps (mret a : M A).
Proof. by intros w. Qed.

Lemma keeps_bind {A B : Type} (m : M A) (k : A → M B) :
  keeps m → (∀ a, keeps (k a)) → keeps (m ≫= k).
Proof.
  intros Hm Hk w. rewrite bind_run.
  destruct (Hm w) as [Hs Hd]. destruct (m w) as [[a|e] w']; simpl in *.
  - destruct (Hk a w') as [Hs' Hd']. split; congruence.
  - by split.
Qed.

Lemma keeps_call {A : Type} (r : result A) : keeps (call r).
Proof. by intros w. Qed.

Lemma keeps_gets {A : Type} (f : World → A) : keeps (gets f).
Proof. by intros w. Qed.

Lemma keeps_log level msg args : keeps (log level msg args).
Proof. by intros w. Qed.

Lemma keeps_new_handler sink : keeps (new_handler sink).
Proof. by intros w. Qed.

Lemma keeps_addHandler h : keeps (addHandler h).
Proof. intros w. unfold addHandler, modify. simpl. by case_bool_decide. Qed.

Lemma keeps_set_spoolman_level l : keeps (modify (set_spoolman_level l)).
Proof. by intros w. Qed.

Create HintDb keeps.

#[local] Hint Resolve keeps_ret keeps_call keeps_gets keeps_log
  keeps_new_handler keeps_addHandler keeps_set_spoolman_level : keeps.

Ltac keeps_steps :=
  repeat first
    [ apply keeps_bind; [ | intros ? ]
    | progress auto with keeps
    | match goal with
      | |- keeps (match ?x with _ => _ end) => destruct x
      end ].




Lemma keeps_get_connection_url : keeps get_connection_url.
Proof. unfold get_connection_url. keeps_steps. Qed.

(** The outcome of [get_connection_url] is the same in every state. *)
Lemma get_connection_url_outcome w w' :
  (get_connection_url w).1 = (get_connection_url w').1.
Proof.
  unfold get_connection_url. rewrite !bind_run. unfold call.
  destruct get_database_type as [t|]; [ | done ].
  rewrite !bind_run.
  destruct get_host; [ | done ]. rewrite !bind_run.
  destruct get_port; [ | done ]. rewrite !bind_run.
  destruct get_database; [ | done ]. rewrite !bind_run.
  destruct get_query; [ | done ]. rewrite !bind_run.
  destruct get_username; [ | done ]. rewrite !bind_run.
  destruct get_password; [ | done ].
  by destruct t.
Qed.

(** *** The runs of [startup], [uvicorn_run] and [main] *)

(** [startup], by the outcome of [get_connection_url] and of [setup_db]. *)
Lemma startup_cases w :
  match (get_connection_url w).1 with
  | Raise e =>
      ∃ w', startup w = (Raise e, w') ∧
        stages w' = stages w ++ [DescriptorConstruction] ∧
        db_calls w' = db_calls w ∧
        (get_database_type = Raise e → records w' = records w)
  | Ok url =>
      ∃ w', startup w = (setup_db url, w') ∧
        stages w' =
          stages w ++ [DescriptorConstruction; StorageInitialization] ∧
        db_calls w' = db_calls w ++ [url]
  end.
Proof.
  set (w0 := set_stages (stages w ++ [DescriptorConstruction]) w).
  rewrite (get_connection_url_outcome w w0).
  assert (startup w =
          match get_connection_url w0 with
          | (Ok url, w1) =>
              (setup_db url,
               set_db_calls (db_calls w1 ++ [url])
                 (set_stages (stages w1 ++ [StorageInitialization]) w1))
          | (Raise e, w1) => (Raise e, w1)
          end) as Hrun.
  { unfold startup. rewrite bind_run. simpl. fold w0. rewrite bind_run.
    by destruct (get_connection_url w0) as [[url|e] w1]. }
  destruct (keeps_get_connection_url w0) as [Hs Hd].
  pose proof (get_connection_url_raise_type) as Hraise.
  destruct (get_connection_url w0) as [[url|e] w1] eqn:Hurl; simpl in *.
  - eexists. split; [ exact Hrun | ]. simpl. rewrite Hs, Hd.
    split; [ by rewrite <- app_assoc | done ].
  - eexists. split; [ exact Hrun | ]. repeat split; try done.
    intros Ht. rewrite (Hraise _ w0 Ht) in Hurl. by inversion Hurl.
Qed.

(** [uvicorn_run], likewise. *)
Lemma uvicorn_run_cases app w :
  match (get_connection_url w).1 with
  | Raise e =>
      ∃ w', uvicorn_run app w = (Raise (SystemExit STARTUP_FAILURE), w') ∧
        stages w' = stages w ++ [DescriptorConstruction] ∧
        db_calls w' = db_calls w ∧
        (get_database_type = Raise e → records w' = records w)
  | Ok url =>
      match setup_db url with
      | Raise e =>
          ∃ w', uvicorn_run app w = (Raise (SystemExit STARTUP_FAILURE), w') ∧
            stages w' =
              stages w ++ [DescriptorConstruction; StorageInitialization] ∧
            db_calls w' = db_calls w ++ [url]
      | Ok _ =>
          ∃ w', uvicorn_run app w = (Ok tt, w') ∧
            stages w' =
              stages w
              ++ [DescriptorConstruction; StorageInitialization; Serving] ∧
            db_calls w' = db_calls w ++ [url]
      end
  end.
Proof.
  pose proof (startup_cases w) as H. unfold uvicorn_run. rewrite bind_run.
  unfold attempt.
  destruct ((get_connection_url w).1) as [url|e].
  - destruct H as (w' & -> & Hs & Hd).
    destruct (setup_db url) as [[]|e].
    + eexists. split; [ reflexivity | ]. simpl. rewrite Hs.
      split; [ by rewrite <- app_assoc | done ].
    + by eexists.
  - destruct H as (w' & -> & Hs & Hd & Hrec). by eexists.
Qed.


(** *** The handlers of the root logger *)

Lemma fresh_ids_next w :
  fresh_ids w → next_object w ∉ hdlr_id <$> root_handlers w.
Proof.
  intros Hfresh (h & Hid & Hin)%list_elem_of_fmap.
  unfold fresh_ids in Hfresh. rewrite Forall_forall in Hfresh.
  specialize (Hfresh h Hin). lia.
Qed.

Lemma setup_logging_run w l :
  mkdir_data_dir = Ok tt → open_log_file log_path = Ok tt →
  get_logging_level = Ok l → fresh_ids w →
  ∃ w', setup_logging w = (Ok tt, w') ∧ fresh_ids w' ∧
    root_handlers w' =
      match root_handlers w with
      | [] => [file_handler (next_object w);
               console_handler (S (next_object w)) l]
      | _ :: _ => root_handlers w ++ [console_handler (next_object w) l]
      end.
Proof.
  intros Hmk Hopen Hlevel Hfresh.
  destruct w as [hs n lv rs dc st]. unfold fresh_ids in *. simpl in *.
  unfold setup_logging, basicConfig, mbind, M_bind, call, gets, modify,
    new_handler, addHandler. simpl.
  rewrite Hmk. fold log_path. destruct hs as [|h hs].
  - rewrite Hopen. simpl. rewrite Hlevel. simpl. unfold modify. simpl.
    rewrite bool_decide_eq_false_2
      by (rewrite list_elem_of_singleton; lia).
    eexists. split; [ reflexivity | ]. split; [ | reflexivity ].
    simpl. repeat constructor; simpl; lia.
  - rewrite Hlevel. simpl. unfold modify. simpl.
    rewrite bool_decide_eq_false_2.
    + eexists. split; [ reflexivity | ]. split; [ | reflexivity ].
      simpl. rewrite app_comm_cons. apply Forall_app. split.
      * eapply Forall_impl; [ exact Hfresh | ]. simpl. intros; lia.
      * repeat constructor; simpl; lia.
    + change (hdlr_id h :: list_fmap Handler nat hdlr_id hs)
        with (hdlr_id <$> h :: hs).
      intros (h' & Hid & Hin)%list_elem_of_fmap.
      rewrite Forall_forall in Hfresh. specialize (Hfresh h' Hin). lia.
Qed.

(** [make_app], by the debug flag. *)
Lemma make_app_run w d :
  is_debug_mode = Ok d → check_static_dir "client/dist" = Ok tt →
  make_app w =
  if d then
    (Ok (add_middleware (base_app d)
           (CORSMiddleware ["*"] true ["*"] ["*"])),
     set_records (records w ++ [debug_record]) w)
  else (Ok (base_app d), w).
Proof.
  intros Hd Hdir. unfold make_app.
  rewrite (bind_call_ok _ _ _ _ Hd). rewrite (bind_call_ok _ _ _ _ Hdir).
  rewrite (bind_call_ok _ _ _ _ Hd). by destruct d.
Qed.

(** *** The default database file *)

Lemma default_database_parent : path_parent default_database = data_dir.
Proof.
  unfold path_parent, default_database, joinpath. simpl.
  rewrite removelast_last. by destruct data_dir.
Qed.

Lemma default_database_name : path_name default_database = "spoolman.db".
Proof. unfold path_name, default_database, joinpath. simpl. apply last_last. Qed.




(** ** The claims *)

(** C1 (as amended).  When no database type is set, [get_connection_url]
    returns a URL of the SQLite driver whose database is the default file
    in the data directory; the host, port, username and password that the
    environment supplies are passed on to the URL as they are, they are
    not dropped. *)
Theorem default_url_passes_network_fields s w :
  env_reads s → cs_database_type s = None →
  ∃ url w', get_connection_url w = (Ok url, w') ∧
    url_drivername url = to_drivername SQLITE ∧
    url_database url = Some (path_str default_database) ∧
    url_host url = cs_host s ∧ url_port url = cs_port s ∧
    url_username url = cs_username s ∧ url_password url = cs_password s.
Proof.
  intros Hreads Hnone. do 2 eexists.
  split; [ by apply get_connection_url_default | done ].
Qed.

(** C2.  When a database type is set, [get_connection_url] returns a URL
    with the driver of that type in which host, port, database name,
    username and password are exactly what the environment supplies (a
    value where one is supplied, [None] where none is), and whose query is
    the supplied mapping, key by key, or empty when none is supplied. *)
Theorem typed_url_preserves_fields s t w :
  env_reads s → cs_database_type s = Some t →
  ∃ url w', get_connection_url w = (Ok url, w') ∧
    url_drivername url = to_drivername t ∧
    url_host url = cs_host s ∧ url_port url = cs_port s ∧
    url_database url = cs_database s ∧
    url_username url = cs_username s ∧ url_password url = cs_password s ∧
    (∀ q, cs_query s = Some q →
       url_query url = q ∧ ∀ k v, q !! k = Some v → url_query url !! k = Some v) ∧
    (cs_query s = None → url_query url = ∅).
Proof.
  intros Hreads Hsome. do 2 eexists.
  split; [ by apply get_connection_url_typed | ]. simpl.
  split_and!; try done.
  - intros q ->. split; [ apply query_or_empty_Some | ].
    apply query_or_empty_lookup.
  - by intros ->.
Qed.

(** C3.  When the configured database type is not a recognized variant,
    the reader of the environment reports a configuration error and
    [get_connection_url] raises it at its first line: it returns no URL and
    logs nothing.  The [startup] handler ends with the same error after
    one attempt, and [setup_db] is not called.  The server, [uvicorn_run],
    catches the error of the handler and ends the process with
    [SystemExit(3)]: [setup_db] is not called, the module's logger gets no
    call, and the serving stage is not entered. *)
Theorem unrecognized_database_type_fails_fast
    (recognize : string → option DatabaseType) (v : string) (app : App) w :
  get_database_type = read_database_type recognize (Some v) →
  recognize v = None →
  get_connection_url w = (Raise (ConfigurationError v), w) ∧
  (∃ w', startup w = (Raise (ConfigurationError v), w') ∧
     stages w' = stages w ++ [DescriptorConstruction] ∧
     db_calls w' = db_calls w ∧ records w' = records w) ∧
  (∃ w', uvicorn_run app w = (Raise (SystemExit STARTUP_FAILURE), w') ∧
     stages w' = stages w ++ [DescriptorConstruction] ∧
     db_calls w' = db_calls w ∧ records w' = records w).
Proof.
  intros Hread Hnone. unfold read_database_type in Hread.
  rewrite Hnone in Hread.
  pose proof (get_connection_url_raise_type _ w Hread) as Hurl.
  split; [ done | ]. split.
  - pose proof (startup_cases w) as H. rewrite Hurl in H. simpl in H.
    destruct H as (w' & ? & ? & ? & Hrec). exists w'. auto.
  - pose proof (uvicorn_run_cases app w) as H. rewrite Hurl in H.
    simpl in H. destruct H as (w' & ? & ? & ? & Hrec). exists w'. auto.
Qed.


(** C5.  When the application is composed and the debug flag is true, the
    application carries exactly one middleware, the cross-origin policy
    that allows every origin, every method and every header with
    credentials, and one record of level WARNING saying so is logged; when
    the flag is false, the application carries no middleware and nothing
    is logged. *)
Theorem debug_mode_installs_cors_policy (d : bool) w :
  is_debug_mode = Ok d → check_static_dir "client/dist" = Ok tt →
  ∃ app w', make_app w = (Ok app, w') ∧
    app_debug app = d ∧
    if d then
      app_user_middleware app = [CORSMiddleware ["*"] true ["*"] ["*"]] ∧
      records w' =
        records w
        ++ [MkLogRecord module_name WARNING
              "Running in debug mode, allowing all origins." []]
    else
      app_user_middleware app = [] ∧ records w' = records w.
Proof.
  intros Hd Hdir. rewrite (make_app_run w d Hd Hdir).
  destruct d; do 2 eexists; split; try reflexivity; done.
Qed.


(** C7 (as amended).  When the logging set-up of the module runs a second
    time in the same process, the file sink is not duplicated
    ([basicConfig] leaves a root logger alone that has a handler), but the
    second run appends one more console handler, a new object, to the
    handlers of the root logger. *)
Theorem setup_logging_again_adds_console (l : Z) w :
  mkdir_data_dir = Ok tt → open_log_file log_path = Ok tt →
  get_logging_level = Ok l → fresh_ids w →
  ∃ w1 w2 c,
    setup_logging w = (Ok tt, w1) ∧ setup_logging w1 = (Ok tt, w2) ∧
    root_handlers w2 = root_handlers w1 ++ [c] ∧
    hdlr_sink c = ConsoleSink ∧ (c ∉ root_handlers w1) ∧
    filter is_file_sink (root_handlers w2)
      = filter is_file_sink (root_handlers w1) ∧
    length (filter is_console_sink (root_handlers w2))
      = S (length (filter is_console_sink (root_handlers w1))).
Proof.
  intros Hmk Hopen Hlevel Hfresh.
  destruct (setup_logging_run w l) as (w1 & Hrun1 & Hfresh1 & Hhs1);
    [ done .. | ].
  destruct (setup_logging_run w1 l) as (w2 & Hrun2 & _ & Hhs2);
    [ done .. | ].
  assert (root_handlers w2
          = root_handlers w1 ++ [console_handler (next_object w1) l]) as Hhs.
  { destruct (root_handlers w1) eqn:Hw1; [ | done ].
    by destruct (root_handlers w). }
  exists w1, w2, (console_handler (next_object w1) l). rewrite Hhs.
  split_and!; try done.
  - intros Hin. apply (fresh_ids_next w1 Hfresh1).
    apply list_elem_of_fmap.
    exists (console_handler (next_object w1) l). by split.
  - rewrite filter_app. simpl. apply app_nil_r.
  - rewrite filter_app, length_app. simpl. lia.
Qed.

(** C9.  When the environment supplies no query parameters,
    [get_connection_url] still returns a URL, and the query of that URL is
    the empty mapping. *)
Theorem absent_query_gives_empty_mapping s w :
  env_reads s → cs_query s = None →
  ∃ url w', get_connection_url w = (Ok url, w') ∧ url_query url = ∅.
Proof.
  intros Hreads Hq. destruct (cs_database_type s) as [t|] eqn:Ht.
  - do 2 eexists. split; [ by apply get_connection_url_typed | ].
    simpl. by rewrite Hq.
  - do 2 eexists. split; [ by apply get_connection_url_default | ].
    simpl. by rewrite Hq.
Qed.

(** C10.  When no database type is set, the database of the URL is the
    default file, spoolman.db directly inside the data directory, whatever
    database name the environment supplies, and the query of the URL is
    the supplied mapping unchanged. *)
Theorem default_database_replaces_name_keeps_query s w :
  env_reads s → cs_database_type s = None →
  ∃ url w', get_connection_url w = (Ok url, w') ∧
    url_database url = Some (path_str (joinpath data_dir "spoolman.db")) ∧
    path_parent (joinpath data_dir "spoolman.db") = data_dir ∧
    path_name (joinpath data_dir "spoolman.db") = "spoolman.db" ∧
    (∀ q, cs_query s = Some q →
       url_query url = q ∧ ∀ k v, q !! k = Some v → url_query url !! k = Some v).
Proof.
  intros Hreads Hnone. do 2 eexists.
  split; [ by apply get_connection_url_default | ]. simpl.
  split_and!; [ done | apply default_database_parent
              | apply default_database_name | ].
  intros q ->. split; [ apply query_or_empty_Some | ].
  apply query_or_empty_lookup.
Qed.

End Properties.

(** ** The claims on the samples *)

(** C1, exercised: no database type, yet host, port and credentials set. *)
Lemma default_url_passes_network_fields_witness :
  @env_reads untyped_env sample_untyped ∧
  cs_database_type sample_untyped = None ∧
  ∃ url w',
    @get_connection_url untyped_env sample_platform initial_world
      = (Ok url, w') ∧
    url_drivername url = "sqlite+aiosqlite" ∧
    url_database url
      = Some (path_str (@default_database sample_platform)) ∧
    url_host url = Some "db.example.org" ∧ url_port url = Some 5432 ∧
    url_username url = Some "spool" ∧ url_password url = Some "secret".
Proof.
  split; [ repeat split | ]. split; [ reflexivity | ].
  apply (@default_url_passes_network_fields untyped_env sample_platform
           sample_untyped initial_world); [ repeat split | reflexivity ].
Defined.

(** C1 as stated fails: with no database type set, the host, the port, the
    username and the password of the environment are all in the URL. *)
Lemma default_url_network_fields_counterexample :
  @env_reads untyped_env sample_untyped ∧
  cs_database_type sample_untyped = None ∧
  ∃ url w',
    @get_connection_url untyped_env sample_platform initial_world
      = (Ok url, w') ∧
    url_host url = Some "db.example.org" ∧ url_port url = Some 5432 ∧
    url_username url = Some "spool" ∧ url_password url = Some "secret" ∧
    ¬ network_fields_absent url.
Proof.
  split; [ repeat split | ]. split; [ reflexivity | ].
  do 2 eexists. split; [ reflexivity | ]. simpl.
  split_and!; try reflexivity. intros (Hhost & _). discriminate Hhost.
Qed.

(** C2, exercised. *)
Lemma typed_url_preserves_fields_witness :
  @env_reads postgres_env sample_postgres ∧
  cs_database_type sample_postgres = Some SamplePostgres ∧
  ∃ url w',
    @get_connection_url postgres_env sample_platform initial_world
      = (Ok url, w') ∧
    url_drivername url = "postgresql+asyncpg" ∧
    url_host url = Some "db.example.org" ∧ url_port url = Some 5432 ∧
    url_database url = Some "spools" ∧
    url_username url = Some "spool" ∧ url_password url = Some "secret" ∧
    (∀ q, cs_query sample_postgres = Some q →
       url_query url = q ∧
       ∀ k v, q !! k = Some v → url_query url !! k = Some v) ∧
    (cs_query sample_postgres = None → url_query url = ∅).
Proof.
  split; [ repeat split | ]. split; [ reflexivity | ].
  apply (@typed_url_preserves_fields postgres_env sample_platform
           sample_postgres SamplePostgres initial_world);
    [ repeat split | reflexivity ].
Defined.

(** C3, exercised: the database type reads "oracle". *)
Lemma unrecognized_database_type_fails_fast_witness :
  @get_database_type oracle_env
    = read_database_type sample_recognize (Some "oracle") ∧
  sample_recognize "oracle" = None ∧
  @get_connection_url oracle_env sample_platform initial_world
    = (Raise (ConfigurationError "oracle"), initial_world) ∧
  (∃ w', @startup oracle_env sample_platform initial_world
           = (Raise (ConfigurationError "oracle"), w') ∧
     stages w' = stages (@initial_world oracle_env) ++ [DescriptorConstruction] ∧
     db_calls w' = db_calls (@initial_world oracle_env) ∧
     records w' = records (@initial_world oracle_env)) ∧
  (∃ w', @uvicorn_run oracle_env sample_platform (base_app false)
           initial_world
           = (Raise (SystemExit 3), w') ∧
     stages w' = stages (@initial_world oracle_env) ++ [DescriptorConstruction] ∧
     db_calls w' = db_calls (@initial_world oracle_env) ∧
     records w' = records (@initial_world oracle_env)).
Proof.
  split; [ reflexivity | ]. split; [ reflexivity | ].
  apply (@unrecognized_database_type_fails_fast oracle_env sample_platform
           sample_recognize "oracle" (base_app false) initial_world);
    reflexivity.
Defined.


(** C5, exercised with debug mode on. *)
Lemma debug_mode_installs_cors_policy_witness :
  @is_debug_mode debug_env = Ok true ∧
  @check_static_dir sample_platform "client/dist" = Ok tt ∧
  ∃ app w',
    @make_app debug_env sample_platform initial_world = (Ok app, w') ∧
    app_debug app = true ∧
    app_user_middleware app = [CORSMiddleware ["*"] true ["*"] ["*"]] ∧
    records w' =
      records (@initial_world debug_env)
      ++ [MkLogRecord "__main__" WARNING
            "Running in debug mode, allowing all origins." []].
Proof.
  split; [ reflexivity | ]. split; [ reflexivity | ].
  apply (@debug_mode_installs_cors_policy debug_env sample_platform true
           initial_world); reflexivity.
Defined.


(** C7, exercised from the initial state. *)
Lemma setup_logging_again_adds_console_witness :
  @fresh_ids empty_env initial_world ∧
  ∃ w1 w2 c,
    @setup_logging empty_env sample_platform initial_world = (Ok tt, w1) ∧
    @setup_logging empty_env sample_platform w1 = (Ok tt, w2) ∧
    root_handlers w2 = root_handlers w1 ++ [c] ∧
    hdlr_sink c = ConsoleSink ∧ (c ∉ root_handlers w1) ∧
    filter is_file_sink (root_handlers w2)
      = filter is_file_sink (root_handlers w1) ∧
    length (filter is_console_sink (root_handlers w2))
      = S (length (filter is_console_sink (root_handlers w1))).
Proof.
  split; [ constructor | ].
  apply (@setup_logging_again_adds_console empty_env sample_platform INFO
           initial_world); [ reflexivity .. | constructor ].
Defined.

(** C7 as stated fails: after the second run of the logging set-up the
    root logger has the file sink once and the console sink twice. *)
Lemma setup_logging_twice_counterexample :
  ∃ w1 w2,
    @setup_logging empty_env sample_platform initial_world = (Ok tt, w1) ∧
    @setup_logging empty_env sample_platform w1 = (Ok tt, w2) ∧
    hdlr_sink <$> root_handlers w1
      = [FileSink (@log_path sample_platform) "w"; ConsoleSink] ∧
    hdlr_sink <$> root_handlers w2
      = [FileSink (@log_path sample_platform) "w"; ConsoleSink; ConsoleSink] ∧
    root_handlers w2 ≠ root_handlers w1.
Proof.
  do 2 eexists. split; [ reflexivity | ]. split; [ reflexivity | ].
  split; [ reflexivity | ]. split; [ reflexivity | ]. discriminate.
Qed.

(** C9, exercised. *)
Lemma absent_query_gives_empty_mapping_witness :
  @env_reads empty_env no_settings ∧
  cs_query (@no_settings SampleType) = None ∧
  ∃ url w',
    @get_connection_url empty_env sample_platform initial_world
      = (Ok url, w') ∧
    url_query url = ∅.
Proof.
  split; [ repeat split | ]. split; [ reflexivity | ].
  apply (@absent_query_gives_empty_mapping empty_env sample_platform
           no_settings initial_world); [ repeat split | reflexivity ].
Defined.

(** C10, exercised: a database name and two query parameters, no type. *)
Lemma default_database_replaces_name_keeps_query_witness :
  @env_reads untyped_env sample_untyped ∧
  cs_database_type sample_untyped = None ∧
  ∃ url w',
    @get_connection_url untyped_env sample_platform initial_world
      = (Ok url, w') ∧
    url_database url
      = Some (path_str (joinpath (@data_dir sample_platform) "spoolman.db")) ∧
    path_parent (joinpath (@data_dir sample_platform) "spoolman.db")
      = @data_dir sample_platform ∧
    path_name (joinpath (@data_dir sample_platform) "spoolman.db")
      = "spoolman.db" ∧
    (∀ q, cs_query sample_untyped = Some q →
       url_query url = q ∧
       ∀ k v, q !! k = Some v → url_query url !! k = Some v).
Proof.
  split; [ repeat split | ]. split; [ reflexivity | ].
  apply (@default_database_replaces_name_keeps_query untyped_env
           sample_platform sample_untyped initial_world);
    [ repeat split | reflexivity ].
Defined.

(** ** Further properties of the module *)

Section Further.

Context {E : EnvModule} {P : Platform}.

Implicit Types (w : World) (s : ConnectionSettings DatabaseType).

(** *** [get_connection_url] *)

(** X1.  [get_connection_url] reads all seven settings before it does
    anything else.  When one of the reading functions raises, it raises the
    exception of the first of them in call order (database type, host,
    port, database, query, username, password) and leaves the state as it
    was: nothing is logged.  When none raises, it returns a URL. *)
Theorem get_connection_url_first_reader_exception w :
  match first_reader_exception with
  | Some e => get_connection_url w = (Raise e, w)
  | None => ∃ url w', get_connection_url w = (Ok url, w')
  end.
Proof.
  unfold first_reader_exception, get_connection_url.
  rewrite bind_run. unfold call at 1.
  destruct get_database_type as [t|]; [ | done ].
  rewrite bind_run. unfold call at 1. destruct get_host; [ | done ].
  rewrite bind_run. unfold call at 1. destruct get_port; [ | done ].
  rewrite bind_run. unfold call at 1. destruct get_database; [ | done ].
  rewrite bind_run. unfold call at 1. destruct get_query; [ | done ].
  rewrite bind_run. unfold call at 1. destruct get_username; [ | done ].
  rewrite bind_run. unfold call at 1. destruct get_password; [ | done ].
  simpl. destruct t; by do 2 eexists.
Qed.

(** X2.  When the settings read, [get_connection_url] calls [logger.info]
    exactly once, on the module's logger, and changes nothing else of the
    state.  The arguments of the call are the database of the URL returned
    (no database type) or the database type with the host and the port of
    the URL returned; the username, the password and the query are not
    among them.  (What the logging module does with the call is outside
    the state: under the effective level of the logger it may drop it.) *)
Theorem get_connection_url_logs_one_record s w :
  env_reads s →
  ∃ url r w', get_connection_url w = (Ok url, w') ∧
    w' = set_records (records w ++ [r]) w ∧
    rec_levelno r = INFO ∧ rec_name r = module_name ∧
    match cs_database_type s with
    | None => ∃ d, url_database url = Some d ∧ rec_args r = [ArgStr d]
    | Some t =>
        rec_args r
        = [ArgDatabaseType t; ArgOptStr (url_host url);
           ArgOptInt (url_port url)]
    end.
Proof.
  intros Hreads. destruct (cs_database_type s) as [t|] eqn:Ht.
  - do 3 eexists. split; [ by apply get_connection_url_typed | done ].
  - do 3 eexists. split; [ by apply get_connection_url_default | ].
    split_and!; try done. by eexists.
Qed.

(** *** [startup] and [uvicorn_run] *)


(** [startup], by the run of [get_connection_url]. *)
Lemma startup_run w :
  startup w =
  match
    get_connection_url (set_stages (stages w ++ [DescriptorConstruction]) w)
  with
  | (Ok url, w1) =>
      (setup_db url,
       set_db_calls (db_calls w1 ++ [url])
         (set_stages (stages w1 ++ [StorageInitialization]) w1))
  | (Raise e, w1) => (Raise e, w1)
  end.
Proof.
  unfold startup. rewrite bind_run. simpl.
  set (w0 := set_stages (stages w ++ [DescriptorConstruction]) w).
  rewrite bind_run. by destruct (get_connection_url w0) as [[url|e] w1].
Qed.

(** X3.  When a reading function raises, whichever it is, the server does
    not come up: the start-up handler ends with the exception of the first
    one that raises, and [uvicorn_run], which catches it, ends the process
    with [SystemExit(3)].  [setup_db] is not called, the module's logger
    gets no call, and the serving stage is not entered: the state is as it
    was but for the stage entered. *)
Theorem reader_failure_never_reaches_storage (e : exn) (app : App) w :
  first_reader_exception = Some e →
  startup w
  = (Raise e, set_stages (stages w ++ [DescriptorConstruction]) w) ∧
  uvicorn_run app w
  = (Raise (SystemExit STARTUP_FAILURE),
     set_stages (stages w ++ [DescriptorConstruction]) w).
Proof.
  intros Hfirst.
  pose proof (get_connection_url_first_reader_exception
                (set_stages (stages w ++ [DescriptorConstruction]) w)) as H.
  rewrite Hfirst in H.
  assert (startup w
          = (Raise e, set_stages (stages w ++ [DescriptorConstruction]) w))
    as Hstart by (by rewrite startup_run, H).
  split; [ done | ].
  unfold uvicorn_run. rewrite bind_run. unfold attempt. by rewrite Hstart.
Qed.

(** X4.  When the settings give the URL [url] and [setup_db] raises on it,
    there is exactly one call of [setup_db], the one with [url]; the
    server does not serve and ends the process with [SystemExit(3)]. *)
Theorem storage_failure_single_attempt (url : URL) (e : exn) (app : App) w :
  (get_connection_url w).1 = Ok url → setup_db url = Raise e →
  ∃ w', uvicorn_run app w = (Raise (SystemExit STARTUP_FAILURE), w') ∧
    db_calls w' = db_calls w ++ [url] ∧
    stages w'
    = stages w ++ [DescriptorConstruction; StorageInitialization].
Proof.
  intros Hurl Hdb. pose proof (uvicorn_run_cases app w) as H.
  rewrite Hurl, Hdb in H. destruct H as (w' & Hrun & Hs & Hd).
  by exists w'.
Qed.


(** *** The logging set-up *)

Ltac run_setup_logging :=
  unfold setup_logging, basicConfig, mbind, M_bind, call, gets, modify,
    new_handler, addHandler; simpl; fold log_path.

(** X6.  In a process whose root logger has no handler yet, the logging
    set-up gives the root logger exactly two handlers: first the file
    handler on spoolman.log in the data directory, opened for overwriting,
    with the timestamped format and no level of its own, then the console
    handler with the configured level.  The logger of spoolman gets the
    configured level. *)
Theorem setup_logging_first_run (l : Z) w :
  root_handlers w = [] →
  mkdir_data_dir = Ok tt → open_log_file log_path = Ok tt →
  get_logging_level = Ok l →
  ∃ w', setup_logging w = (Ok tt, w') ∧
    root_handlers w'
    = [file_handler (next_object w); console_handler (S (next_object w)) l] ∧
    spoolman_level w' = l ∧
    hdlr_sink <$> root_handlers w'
    = [FileSink (joinpath data_dir "spoolman.log") "w"; ConsoleSink] ∧
    hdlr_level <$> root_handlers w' = [NOTSET; l].
Proof.
  intros Hnil Hmk Hopen Hlevel.
  destruct w as [hs n lv rs dc st]. simpl in *. subst hs.
  run_setup_logging. rewrite Hmk, Hopen. simpl. rewrite Hlevel. simpl.
  unfold modify. simpl.
  rewrite bool_decide_eq_false_2 by (rewrite list_elem_of_singleton; lia).
  eexists. split; [ reflexivity | done ].
Qed.

(** X7.  When the root logger has a handler already, the logging set-up
    does not touch the log file: whether or not the file could be opened,
    it succeeds, adds no file handler, and appends the console handler. *)
Theorem setup_logging_configured_root_skips_file (l : Z) w :
  root_handlers w ≠ [] → fresh_ids w →
  mkdir_data_dir = Ok tt → get_logging_level = Ok l →
  ∃ w', setup_logging w = (Ok tt, w') ∧
    root_handlers w'
    = root_handlers w ++ [console_handler (next_object w) l] ∧
    filter is_file_sink (root_handlers w')
    = filter is_file_sink (root_handlers w).
Proof.
  intros Hhs Hfresh Hmk Hlevel.
  destruct w as [hs n lv rs dc st]. unfold fresh_ids in *. simpl in *.
  destruct hs as [|h hs]; [ done | ].
  run_setup_logging. rewrite Hmk. simpl. rewrite Hlevel. simpl.
  unfold modify. simpl. rewrite bool_decide_eq_false_2.
  - eexists. split; [ reflexivity | ]. simpl. split; [ done | ].
    rewrite app_comm_cons, filter_app. simpl. apply app_nil_r.
  - change (hdlr_id h :: list_fmap Handler nat hdlr_id hs)
      with (hdlr_id <$> h :: hs).
    intros (h' & Hid & Hin)%list_elem_of_fmap.
    rewrite Forall_forall in Hfresh. specialize (Hfresh h' Hin). lia.
Qed.

(** X8.  When the logging level cannot be read, the logging set-up of a
    process whose root logger has no handler ends with that exception
    half-way: the file handler is installed, the console handler is not,
    and the level of the logger of spoolman is unchanged. *)
Theorem setup_logging_level_failure_keeps_file_handler (e : exn) w :
  root_handlers w = [] →
  mkdir_data_dir = Ok tt → open_log_file log_path = Ok tt →
  get_logging_level = Raise e →
  ∃ w', setup_logging w = (Raise e, w') ∧
    root_handlers w' = [file_handler (next_object w)] ∧
    spoolman_level w' = spoolman_level w.
Proof.
  intros Hnil Hmk Hopen Hlevel.
  destruct w as [hs n lv rs dc st]. simpl in *. subst hs.
  run_setup_logging. rewrite Hmk, Hopen. simpl. rewrite Hlevel. simpl.
  eexists. split; [ reflexivity | done ].
Qed.

(** X9.  When the data directory cannot be created, or when the root
    logger has no handler and the log file cannot be opened, the logging
    set-up ends with that exception and the state is as it was: no handler
    is installed. *)
Theorem setup_logging_file_system_failure (e : exn) w :
  mkdir_data_dir = Raise e ∨
  (mkdir_data_dir = Ok tt ∧ root_handlers w = [] ∧
   open_log_file log_path = Raise e) →
  setup_logging w = (Raise e, w).
Proof.
  intros [Hmk | (Hmk & Hnil & Hopen)].
  - unfold setup_logging. by rewrite (bind_call_raise _ _ _ _ Hmk).
  - destruct w as [hs n lv rs dc st]. simpl in *. subst hs.
    run_setup_logging. rewrite Hmk, Hopen. reflexivity.
Qed.

(** One run of the logging set-up, by what it adds.  The handlers stay
    distinct objects. *)
Lemma setup_logging_step (l : Z) w :
  mkdir_data_dir = Ok tt → open_log_file log_path = Ok tt →
  get_logging_level = Ok l →
  fresh_ids w → NoDup (hdlr_id <$> root_handlers w) →
  ∃ w', setup_logging w = (Ok tt, w') ∧
    fresh_ids w' ∧ NoDup (hdlr_id <$> root_handlers w') ∧
    root_handlers w' ≠ [] ∧
    length (filter is_console_sink (root_handlers w'))
    = S (length (filter is_console_sink (root_handlers w))) ∧
    length (filter is_file_sink (root_handlers w'))
    = (length (filter is_file_sink (root_handlers w))
       + match root_handlers w with [] => 1 | _ :: _ => 0 end)%nat.
Proof.
  intros Hmk Hopen Hlevel Hfresh Hnodup.
  destruct (setup_logging_run w l) as (w' & Hrun & Hfresh' & Hhs);
    [ done .. | ].
  exists w'. split; [ done | ]. split; [ done | ].
  pose proof (fresh_ids_next w Hfresh) as Hnew.
  destruct (root_handlers w) as [|h hs] eqn:Hw; rewrite Hhs.
  - split_and!; try done. simpl. apply NoDup_cons.
    split; [ rewrite list_elem_of_singleton; lia | apply NoDup_singleton ].
  - split_and!.
    + rewrite fmap_app. apply NoDup_app. split; [ done | ].
      split; [ | apply NoDup_singleton ].
      intros i Hi Hi'. apply list_elem_of_singleton in Hi'. simpl in Hi'.
      by subst i.
    + done.
    + rewrite filter_app, length_app. simpl. lia.
    + rewrite filter_app, length_app. simpl. lia.
Qed.

Lemma setup_logging_times_sinks (l : Z) (n : nat) w :
  mkdir_data_dir = Ok tt → open_log_file log_path = Ok tt →
  get_logging_level = Ok l →
  fresh_ids w → NoDup (hdlr_id <$> root_handlers w) →
  ∃ w', setup_logging_times n w = (Ok tt, w') ∧
    fresh_ids w' ∧ NoDup (hdlr_id <$> root_handlers w') ∧
    length (filter is_console_sink (root_handlers w'))
    = (length (filter is_console_sink (root_handlers w)) + n)%nat ∧
    length (filter is_file_sink (root_handlers w'))
    = (length (filter is_file_sink (root_handlers w))
       + match root_handlers w, n with [], S _ => 1 | _, _ => 0 end)%nat.
Proof.
  intros Hmk Hopen Hlevel. revert w.
  induction n as [|n IH]; intros w Hfresh Hnodup.
  - exists w. split_and!; try done; try lia.
    destruct (root_handlers w); simpl; lia.
  - destruct (setup_logging_step l w)
      as (w1 & Hrun & Hfresh1 & Hnodup1 & Hne & Hc & Hf); [ done .. | ].
    destruct (IH w1 Hfresh1 Hnodup1) as (w' & Hrun' & ? & ? & Hc' & Hf').
    exists w'. split.
    { simpl. rewrite bind_run, Hrun. exact Hrun'. }
    split_and!; try done; try lia.
    rewrite Hf', Hf.
    destruct (root_handlers w1); [ done | ].
    destruct (root_handlers w), n; lia.
Qed.

(** X10.  However often the logging set-up runs in a process whose root
    logger starts without a handler, the root logger ends with one file
    handler and with as many console handlers as there were runs, all of
    them distinct objects. *)
Theorem setup_logging_repeated_sinks (l : Z) (n : nat) w :
  root_handlers w = [] →
  mkdir_data_dir = Ok tt → open_log_file log_path = Ok tt →
  get_logging_level = Ok l →
  ∃ w', setup_logging_times (S n) w = (Ok tt, w') ∧
    length (filter is_file_sink (root_handlers w')) = 1%nat ∧
    length (filter is_console_sink (root_handlers w')) = S n ∧
    NoDup (hdlr_id <$> root_handlers w').
Proof.
  intros Hnil Hmk Hopen Hlevel.
  destruct (setup_logging_times_sinks l (S n) w)
    as (w' & Hrun & _ & Hnodup & Hc & Hf); try done.
  - unfold fresh_ids. rewrite Hnil. constructor.
  - rewrite Hnil. constructor.
  - exists w'. rewrite Hnil in Hc, Hf. by split_and!.
Qed.

(** *** The application *)

(** X11.  When composing the application fails, the state is as it was: in
    particular the warning of debug mode is logged only once the client
    directory has been mounted, so a failed composition logs nothing, in
    debug mode too. *)
Theorem make_app_failure_changes_nothing (e : exn) w :
  (make_app w).1 = Raise e → make_app w = (Raise e, w).
Proof.
  unfold make_app. rewrite bind_run. unfold call at 1.
  destruct is_debug_mode as [d|e']; [ | by intros [= ->] ].
  rewrite bind_run. unfold call at 1.
  destruct (check_static_dir "client/dist") as [[]|e'];
    [ | by intros [= ->] ].
  rewrite bind_run. unfold call at 1. by destruct d.
Qed.

End Further.

(** ** The further properties on the samples *)

(** X2, exercised on a typed database. *)
Lemma get_connection_url_logs_one_record_witness :
  @env_reads postgres_env sample_postgres ∧
  ∃ url r w',
    @get_connection_url postgres_env sample_platform initial_world
      = (Ok url, w') ∧
    w' = set_records (records (@initial_world postgres_env) ++ [r])
           initial_world ∧
    rec_levelno r = INFO ∧ rec_name r = "__main__" ∧
    rec_args r
    = [@ArgDatabaseType postgres_env SamplePostgres;
       ArgOptStr (url_host url); ArgOptInt (url_port url)].
Proof.
  split; [ repeat split | ].
  apply (@get_connection_url_logs_one_record postgres_env sample_platform
           sample_postgres initial_world).
  repeat split.
Defined.

(** X3, exercised: the port cannot be read, and neither can the username;
    the exception of the handler is the port's. *)
Lemma reader_failure_never_reaches_storage_witness :
  @first_reader_exception bad_port_env = Some (ConfigurationError "port") ∧
  @startup bad_port_env sample_platform initial_world
  = (Raise (ConfigurationError "port"),
     set_stages
       (stages (@initial_world bad_port_env) ++ [DescriptorConstruction])
       initial_world) ∧
  @uvicorn_run bad_port_env sample_platform (base_app true) initial_world
  = (Raise (SystemExit 3),
     set_stages
       (stages (@initial_world bad_port_env) ++ [DescriptorConstruction])
       initial_world).
Proof.
  split; [ reflexivity | ].
  apply (@reader_failure_never_reaches_storage bad_port_env sample_platform
           (ConfigurationError "port") (base_app true) initial_world).
  reflexivity.
Defined.

(** X4, exercised on the platform whose storage layer cannot be reached. *)
Lemma storage_failure_single_attempt_witness :
  (@get_connection_url empty_env sample_platform_no_storage
     initial_world).1
  = Ok (@default_url empty_env sample_platform_no_storage) ∧
  @setup_db sample_platform_no_storage
    (@default_url empty_env sample_platform_no_storage)
  = Raise (ExternalError "connection refused") ∧
  ∃ w',
    @uvicorn_run empty_env sample_platform_no_storage (base_app false)
      initial_world
    = (Raise (SystemExit 3), w') ∧
    db_calls w'
    = db_calls (@initial_world empty_env)
      ++ [@default_url empty_env sample_platform_no_storage] ∧
    stages w'
    = stages (@initial_world empty_env)
      ++ [DescriptorConstruction; StorageInitialization].
Proof.
  split; [ reflexivity | ]. split; [ reflexivity | ].
  apply (@storage_failure_single_attempt empty_env
           sample_platform_no_storage
           (@default_url empty_env sample_platform_no_storage)
           (ExternalError "connection refused") (base_app false)
           initial_world); reflexivity.
Defined.

(** X6, exercised from the initial state. *)
Lemma setup_logging_first_run_witness :
  root_handlers (@initial_world empty_env) = [] ∧
  ∃ w', @setup_logging empty_env sample_platform initial_world
        = (Ok tt, w') ∧
    root_handlers w'
    = [@file_handler sample_platform 0; console_handler 1 INFO] ∧
    spoolman_level w' = INFO ∧
    hdlr_sink <$> root_handlers w'
    = [FileSink (joinpath (@data_dir sample_platform) "spoolman.log") "w";
       ConsoleSink] ∧
    hdlr_level <$> root_handlers w' = [NOTSET; INFO].
Proof.
  split; [ reflexivity | ].
  apply (@setup_logging_first_run empty_env sample_platform INFO
           initial_world); reflexivity.
Defined.

(** X7, exercised: the root logger has a handler and the log file cannot
    be opened. *)
Lemma setup_logging_configured_root_skips_file_witness :
  root_handlers (@configured_world empty_env) ≠ [] ∧
  @fresh_ids empty_env configured_world ∧
  @open_log_file
    (sample_platform_with (Ok tt) (Raise (ExternalError "read-only"))
       (Ok tt) (Ok tt))
    (@log_path sample_platform)
  = Raise (ExternalError "read-only") ∧
  ∃ w',
    @setup_logging empty_env
      (sample_platform_with (Ok tt) (Raise (ExternalError "read-only"))
         (Ok tt) (Ok tt))
      configured_world
    = (Ok tt, w') ∧
    root_handlers w'
    = root_handlers (@configured_world empty_env)
      ++ [console_handler 1 INFO] ∧
    filter is_file_sink (root_handlers w')
    = filter is_file_sink (root_handlers (@configured_world empty_env)).
Proof.
  split; [ discriminate | ].
  split; [ repeat constructor | ]. split; [ reflexivity | ].
  apply (@setup_logging_configured_root_skips_file empty_env
           (sample_platform_with (Ok tt) (Raise (ExternalError "read-only"))
              (Ok tt) (Ok tt))
           INFO configured_world);
    [ discriminate | repeat constructor | reflexivity | reflexivity ].
Defined.

(** X8, exercised. *)
Lemma setup_logging_level_failure_keeps_file_handler_witness :
  @get_logging_level bad_level_env = Raise (ConfigurationError "level") ∧
  ∃ w', @setup_logging bad_level_env sample_platform initial_world
        = (Raise (ConfigurationError "level"), w') ∧
    root_handlers w' = [@file_handler sample_platform 0] ∧
    spoolman_level w' = spoolman_level (@initial_world bad_level_env).
Proof.
  split; [ reflexivity | ].
  apply (@setup_logging_level_failure_keeps_file_handler bad_level_env
           sample_platform (ConfigurationError "level") initial_world);
    reflexivity.
Defined.

(** X9, exercised: the data directory cannot be created. *)
Lemma setup_logging_file_system_failure_witness :
  @mkdir_data_dir
    (sample_platform_with (Raise (ExternalError "permission denied"))
       (Ok tt) (Ok tt) (Ok tt))
  = Raise (ExternalError "permission denied") ∧
  @setup_logging empty_env
    (sample_platform_with (Raise (ExternalError "permission denied"))
       (Ok tt) (Ok tt) (Ok tt))
    initial_world
  = (Raise (ExternalError "permission denied"), initial_world).
Proof.
  split; [ reflexivity | ].
  apply (@setup_logging_file_system_failure empty_env
           (sample_platform_with (Raise (ExternalError "permission denied"))
              (Ok tt) (Ok tt) (Ok tt))
           (ExternalError "permission denied") initial_world).
  left. reflexivity.
Defined.

(** X10, exercised: three runs. *)
Lemma setup_logging_repeated_sinks_witness :
  root_handlers (@initial_world empty_env) = [] ∧
  ∃ w', @setup_logging_times empty_env sample_platform 3 initial_world
        = (Ok tt, w') ∧
    length (filter is_file_sink (root_handlers w')) = 1%nat ∧
    length (filter is_console_sink (root_handlers w')) = 3%nat ∧
    NoDup (hdlr_id <$> root_handlers w').
Proof.
  split; [ reflexivity | ].
  apply (@setup_logging_repeated_sinks empty_env sample_platform INFO 2%nat
           initial_world); reflexivity.
Defined.

(** X11, exercised: debug mode, and the client directory is missing. *)
Lemma make_app_failure_changes_nothing_witness :
  (@make_app debug_env
     (sample_platform_with (Ok tt) (Ok tt)
        (Raise (ExternalError "client/dist")) (Ok tt))
     initial_world).1
  = Raise (ExternalError "client/dist") ∧
  @make_app debug_env
    (sample_platform_with (Ok tt) (Ok tt)
       (Raise (ExternalError "client/dist")) (Ok tt))
    initial_world
  = (Raise (ExternalError "client/dist"), initial_world).
Proof.
  split; [ reflexivity | ].
  apply (@make_app_failure_changes_nothing debug_env
           (sample_platform_with (Ok tt) (Ok tt)
              (Raise (ExternalError "client/dist")) (Ok tt))
           (ExternalError "client/dist") initial_world).
  reflexivity.
Defined.
